(** * AccountView: the account panel of the webview UI

    A shallow embedding of
    [webview-ui/src/components/account/AccountView.tsx]: the props, the
    [wasAuthenticatedRef] cell, the [useEffect] that watches
    [isAuthenticated], the three click handlers and the JSX the component
    returns, followed by the properties of the view that the specification
    states. *)

From Stdlib Require Import String Ascii List Bool Lia.
Import ListNotations.
Open Scope string_scope.
Open Scope list_scope.

Set Warnings "-register-all".

(* ===================================================================== *)
(** ** Imported types *)
(* ===================================================================== *)

(** Modelled from the spec: the type [CloudUserInfo] of [@roo-code/types] is
    imported by the component and not declared in it.  The specification
    lists its fields (display name, email, picture URL, organization name,
    organization image URL), "no field is required; all are independently
    optional".  [None] is JavaScript's [undefined]. *)
Record CloudUserInfo : Type := mkCloudUserInfo {
  name                 : option string;
  email                : option string;
  picture              : option string;
  organizationName     : option string;
  organizationImageUrl : option string
}.

(** Modelled from the spec: the members of the enum [TelemetryEventName] of
    [@roo-code/types] that the component names; the specification calls them
    connect-clicked, logout-clicked and logout-succeeded. *)
Inductive TelemetryEventName : Type :=
| ACCOUNT_CONNECT_CLICKED
| ACCOUNT_LOGOUT_CLICKED
| ACCOUNT_LOGOUT_SUCCESS.

Definition TelemetryEventName_eqb (a b : TelemetryEventName) : bool :=
  match a, b with
  | ACCOUNT_CONNECT_CLICKED, ACCOUNT_CONNECT_CLICKED => true
  | ACCOUNT_LOGOUT_CLICKED, ACCOUNT_LOGOUT_CLICKED => true
  | ACCOUNT_LOGOUT_SUCCESS, ACCOUNT_LOGOUT_SUCCESS => true
  | _, _ => false
  end.

(** [type AccountViewProps].  The callback [onDone] is opaque to the
    component: calling it is recorded as an effect (see [Effect]). *)
Record AccountViewProps : Type := mkProps {
  userInfo        : option CloudUserInfo;   (* CloudUserInfo | null *)
  isAuthenticated : bool;
  cloudApiUrl     : option string           (* cloudApiUrl?: string *)
}.

(* ===================================================================== *)
(** ** JavaScript values of the component *)
(* ===================================================================== *)

(** The only values the component tests for truthiness are strings that may
    be [undefined]: a string is truthy when it is not empty. *)
Definition truthy (v : option string) : bool :=
  match v with
  | Some (String _ _) => true
  | Some EmptyString => false
  | None => false
  end.

(** [a || b] on such values. *)
Definition js_or (a b : option string) : option string :=
  if truthy a then a else b.

(** [s.charAt(n)]: the one-unit string at index [n], or the empty string. *)
Definition charAt (s : string) (n : nat) : string :=
  match String.get n s with
  | Some c => String c EmptyString
  | None => EmptyString
  end.

(* ===================================================================== *)
(** ** The world the component acts on *)
(* ===================================================================== *)

(** The object literal passed to [vscode.postMessage]. *)
Record WebviewMessage : Type := mkMessage {
  type : string;
  url  : option string
}.

(** What the component does to its collaborators, in program order. *)
Inductive Effect : Type :=
| Capture (e : TelemetryEventName)      (* telemetryClient.capture(e) *)
| PostMessage (m : WebviewMessage)      (* vscode.postMessage(m) *)
| CallOnDone.                           (* onDone() *)

(** The mutable state a mounted instance can reach: the [current] field of
    [wasAuthenticatedRef] and the effects performed so far, oldest first. *)
Record Store : Type := mkStore {
  wasAuthenticatedRef : bool;
  effects             : list Effect
}.

(** A small state monad over [Store]. *)
Definition M (A : Type) : Type := Store -> A * Store.

Definition ret {A : Type} (a : A) : M A := fun s => (a, s).

Definition bind {A B : Type} (c : M A) (k : A -> M B) : M B :=
  fun s => let (a, s') := c s in k a s'.

Notation "x <- c ;; k" := (bind c (fun x => k))
  (at level 61, c at next level, right associativity).
Notation "c ;; k" := (bind c (fun _ => k))
  (at level 61, right associativity).

Definition exec {A : Type} (c : M A) (s : Store) : Store := snd (c s).

(** [wasAuthenticatedRef.current] *)
Definition read_wasAuthenticatedRef : M bool :=
  fun s => (wasAuthenticatedRef s, s).

(** [wasAuthenticatedRef.current = b] *)
Definition write_wasAuthenticatedRef (b : bool) : M unit :=
  fun s => (tt, mkStore b (effects s)).

Definition perform (e : Effect) : M unit :=
  fun s => (tt, mkStore (wasAuthenticatedRef s) (effects s ++ [e])).

Definition telemetryClient_capture (e : TelemetryEventName) : M unit :=
  perform (Capture e).

Definition vscode_postMessage (m : WebviewMessage) : M unit :=
  perform (PostMessage m).

(* ===================================================================== *)
(** ** The effect and the click handlers *)
(* ===================================================================== *)

Section Component.

Variable props : AccountViewProps.

(** The body of the [useEffect] callback. *)
Definition authEffect : M unit :=
  if isAuthenticated props then
    write_wasAuthenticatedRef true
  else
    was <- read_wasAuthenticatedRef ;;
    if was && negb (isAuthenticated props) then
      telemetryClient_capture ACCOUNT_LOGOUT_SUCCESS ;;
      write_wasAuthenticatedRef false
    else
      ret tt.

Definition handleConnectClick : M unit :=
  telemetryClient_capture ACCOUNT_CONNECT_CLICKED ;;
  vscode_postMessage (mkMessage "rooCloudSignIn" None).

Definition handleLogoutClick : M unit :=
  telemetryClient_capture ACCOUNT_LOGOUT_CLICKED ;;
  vscode_postMessage (mkMessage "rooCloudSignOut" None).

Definition handleVisitCloudWebsite : M unit :=
  telemetryClient_capture ACCOUNT_CONNECT_CLICKED ;;
  let cloudUrl := js_or (cloudApiUrl props) (Some "https://app.roocode.com") in
  vscode_postMessage (mkMessage "openExternal" cloudUrl).

End Component.

(* ===================================================================== *)
(** ** The element tree *)
(* ===================================================================== *)

(** The function a button's [onClick] is bound to. *)
Inductive Handler : Type :=
| Click_onDone
| Click_handleConnectClick
| Click_handleLogoutClick
| Click_handleVisitCloudWebsite.

Definition Handler_eqb (a b : Handler) : bool :=
  match a, b with
  | Click_onDone, Click_onDone => true
  | Click_handleConnectClick, Click_handleConnectClick => true
  | Click_handleLogoutClick, Click_handleLogoutClick => true
  | Click_handleVisitCloudWebsite, Click_handleVisitCloudWebsite => true
  | _, _ => false
  end.

Inductive Attr : Type :=
| StrAttr (key : string) (value : option string)
| OnClick (h : Handler)
| StyleAttr (entries : list (string * string)).

Inductive VNode : Type :=
| Element (tag : string) (attrs : list Attr) (children : list VNode)
| Fragment (children : list VNode)
| Text (s : string)      (* a string child; the empty string shows nothing *)
| Nothing.               (* a child that is null, undefined or false *)

Definition className (c : string) : Attr := StrAttr "className" (Some c).

(** [{v}] as a child, for a string that may be [undefined]. *)
Definition child (v : option string) : VNode :=
  match v with
  | Some s => Text s
  | None => Nothing
  end.

(** A render either returns a tree or throws. *)
Inductive Outcome (A : Type) : Type :=
| Returns (a : A)
| Throws (error : string).
Arguments Returns {A} a.
Arguments Throws {A} error.

Definition Outcome_bind {A B : Type} (c : Outcome A) (k : A -> Outcome B)
  : Outcome B :=
  match c with
  | Returns a => k a
  | Throws e => Throws e
  end.

Notation "'let?' x ':=' c 'in' k" := (Outcome_bind c (fun x => k))
  (at level 10, x name, c at level 100, k at level 200).

(** [u.f]: reading a property of [null] throws. *)
Definition member (u : option CloudUserInfo) (f : CloudUserInfo -> option string)
  : Outcome (option string) :=
  match u with
  | Some r => Returns (f r)
  | None => Throws "TypeError: Cannot read properties of null"
  end.

(** [u?.f]: [undefined] when [u] is [null]. *)
Definition opt_member (u : option CloudUserInfo)
                      (f : CloudUserInfo -> option string) : option string :=
  match u with
  | Some r => f r
  | None => None
  end.

(** [v?.charAt(0)] *)
Definition opt_charAt0 (v : option string) : option string :=
  match v with
  | Some s => Some (charAt s 0)
  | None => None
  end.

Fixpoint has_onClick_attrs (h : Handler) (l : list Attr) : bool :=
  match l with
  | [] => false
  | OnClick h' :: l' => Handler_eqb h h' || has_onClick_attrs h l'
  | _ :: l' => has_onClick_attrs h l'
  end.

(** Whether some element of the tree is bound to handler [h]. *)
Fixpoint has_onClick (h : Handler) (n : VNode) : bool :=
  match n with
  | Element _ attrs children =>
      has_onClick_attrs h attrs ||
      (fix any (l : list VNode) : bool :=
         match l with
         | [] => false
         | c :: l' => has_onClick h c || any l'
         end) children
  | Fragment children =>
      (fix any (l : list VNode) : bool :=
         match l with
         | [] => false
         | c :: l' => has_onClick h c || any l'
         end) children
  | Text _ => false
  | Nothing => false
  end.

(** The texts of the tree, left to right. *)
Fixpoint texts (n : VNode) : list string :=
  match n with
  | Element _ _ children =>
      (fix all (l : list VNode) : list string :=
         match l with
         | [] => []
         | c :: l' => texts c ++ all l'
         end) children
  | Fragment children =>
      (fix all (l : list VNode) : list string :=
         match l with
         | [] => []
         | c :: l' => texts c ++ all l'
         end) children
  | Text s => [s]
  | Nothing => []
  end.

(** The two layouts the view chooses between. *)
Inductive RenderMode : Type := SignedOut | SignedIn.

(** The layout a tree shows, read off the actions it offers: the signed-in
    layout offers visit-website and log-out and no connect; the signed-out
    layout offers connect and neither of the other two. *)
Definition renderMode (n : VNode) : option RenderMode :=
  match has_onClick Click_handleVisitCloudWebsite n
        && has_onClick Click_handleLogoutClick n,
        has_onClick Click_handleConnectClick n with
  | true, false => Some SignedIn
  | false, true =>
      if has_onClick Click_handleVisitCloudWebsite n
         || has_onClick Click_handleLogoutClick n
      then None else Some SignedOut
  | _, _ => None
  end.

(* ===================================================================== *)
(** ** What the component returns *)
(* ===================================================================== *)

Section Render.

(** [t] of [useAppTranslation()] and [window.IMAGES_BASE_URI]: supplied by
    the host, the same on every render. *)
Variable t : string -> string.
Variable IMAGES_BASE_URI : string.

Definition rooLogoUri : string :=
  String.append IMAGES_BASE_URI "/roo-logo.svg".

(** [userInfo?.name?.charAt(0) || userInfo?.email?.charAt(0) || "?"] *)
Definition avatarInitial (userInfo : option CloudUserInfo) : option string :=
  js_or (js_or (opt_charAt0 (opt_member userInfo name))
               (opt_charAt0 (opt_member userInfo email)))
        (Some "?").

(** The picture container: [userInfo?.picture ? <img/> : <div>initial</div>]. *)
Definition profilePicture (userInfo : option CloudUserInfo) : Outcome VNode :=
  let? inner :=
    if truthy (opt_member userInfo picture) then
      let? src := member userInfo picture in
      Returns (Element "img"
                 [StrAttr "src" src;
                  StrAttr "alt" (Some (t "account:profilePicture"));
                  className "w-full h-full object-cover"] [])
    else
      Returns (Element "div"
                 [className "w-full h-full flex items-center justify-center bg-vscode-button-background text-vscode-button-foreground text-xl"]
                 [child (avatarInitial userInfo)])
  in
  Returns (Element "div" [className "w-16 h-16 mb-3 rounded-full overflow-hidden"]
             [inner]).

(** [userInfo.name && <h2>{userInfo.name}</h2>] *)
Definition userName (userInfo : option CloudUserInfo) : Outcome VNode :=
  let? n := member userInfo name in
  if truthy n then
    let? n' := member userInfo name in
    Returns (Element "h2" [className "text-lg font-medium text-vscode-foreground mb-0"]
               [child n'])
  else Returns Nothing.

(** [userInfo?.email && <p>{userInfo?.email}</p>] *)
Definition userEmail (userInfo : option CloudUserInfo) : Outcome VNode :=
  if truthy (opt_member userInfo email) then
    Returns (Element "p" [className "text-sm text-vscode-descriptionForeground"]
               [child (opt_member userInfo email)])
  else Returns Nothing.

(** [userInfo?.organizationName && <div>...</div>] *)
Definition organization (userInfo : option CloudUserInfo) : Outcome VNode :=
  if truthy (opt_member userInfo organizationName) then
    let? imageUrl := member userInfo organizationImageUrl in
    let? image :=
      if truthy imageUrl then
        let? src := member userInfo organizationImageUrl in
        let? alt := member userInfo organizationName in
        Returns (Element "img"
                   [StrAttr "src" src; StrAttr "alt" alt;
                    className "w-4 h-4 rounded object-cover"] [])
      else Returns Nothing
    in
    let? orgName := member userInfo organizationName in
    Returns (Element "div"
               [className "flex items-center gap-2 text-sm text-vscode-descriptionForeground"]
               [image; Element "span" [] [child orgName]])
  else Returns Nothing.

(** The profile block, the right operand of [userInfo && (...)]. *)
Definition profileBlock (userInfo : option CloudUserInfo) : Outcome VNode :=
  let? pic := profilePicture userInfo in
  let? nm := userName userInfo in
  let? em := userEmail userInfo in
  let? org := organization userInfo in
  Returns (Element "div" [className "flex flex-col items-center mb-6"]
             [pic; nm; em; org]).

(** The action buttons for authenticated users. *)
Definition authenticatedActions : VNode :=
  Element "div" [className "flex flex-col gap-2 mt-4"]
    [Element "VSCodeButton"
       [StrAttr "appearance" (Some "secondary");
        OnClick Click_handleVisitCloudWebsite; className "w-full"]
       [Text (t "account:visitCloudWebsite")];
     Element "VSCodeButton"
       [StrAttr "appearance" (Some "secondary");
        OnClick Click_handleLogoutClick; className "w-full"]
       [Text (t "account:logOut")]].

Definition benefit (key : string) : VNode :=
  Element "li" [className "flex items-start"]
    [Element "span" [className "mr-2 text-vscode-foreground"] [Text "•"];
     Text (t key)].

(** The section for unauthenticated users: logo, benefits, connect button. *)
Definition unauthenticatedSection : list VNode :=
  let mask := String.append "url('" (String.append rooLogoUri "')") in
  [Element "div" [className "flex flex-col items-center mb-1 text-center"]
     [Element "div" [className "w-16 h-16 mb-1 flex items-center justify-center"]
        [Element "div"
           [className "w-12 h-12 bg-vscode-foreground";
            StyleAttr [("WebkitMaskImage", mask);
                       ("WebkitMaskRepeat", "no-repeat");
                       ("WebkitMaskSize", "contain");
                       ("maskImage", mask);
                       ("maskRepeat", "no-repeat");
                       ("maskSize", "contain")]]
           [Element "img"
              [StrAttr "src" (Some rooLogoUri); StrAttr "alt" (Some "Roo logo");
               className "w-12 h-12 opacity-0"] []]]];
   Element "div" [className "flex flex-col mb-6 text-center"]
     [Element "h2" [className "text-lg font-medium text-vscode-foreground mb-2"]
        [Text (t "account:cloudBenefitsTitle")];
      Element "p" [className "text-md text-vscode-descriptionForeground mb-4"]
        [Text (t "account:cloudBenefitsSubtitle")];
      Element "ul"
        [className "text-sm text-vscode-descriptionForeground space-y-2 max-w-xs mx-auto"]
        [benefit "account:cloudBenefitHistory";
         benefit "account:cloudBenefitSharing";
         benefit "account:cloudBenefitMetrics"]];
   Element "div" [className "flex flex-col gap-4"]
     [Element "VSCodeButton"
        [StrAttr "appearance" (Some "primary");
         OnClick Click_handleConnectClick; className "w-full"]
        [Text (t "account:connect")]]].

(** The header: title and done button. *)
Definition header : VNode :=
  Element "div" [className "flex justify-between items-center mb-6"]
    [Element "h1" [className "text-xl font-medium text-vscode-foreground"]
       [Text (t "account:title")];
     Element "VSCodeButton"
       [StrAttr "appearance" (Some "primary"); OnClick Click_onDone]
       [Text (t "settings:common.done")]].

(** [isAuthenticated ? <>...</> : <>...</>] *)
Definition body (props : AccountViewProps) : Outcome VNode :=
  if isAuthenticated props then
    let? profile :=
      match userInfo props with
      | Some _ => profileBlock (userInfo props)
      | None => Returns Nothing
      end
    in
    Returns (Fragment [profile; authenticatedActions])
  else
    Returns (Fragment unauthenticatedSection).

(** The outer [div]: the header, then the section chosen by [body]. *)
Definition page (section : VNode) : VNode :=
  Element "div"
    [className "flex flex-col h-full p-4 bg-vscode-editor-background"]
    [header; section].

(** The [return (...)] of the component. *)
Definition render (props : AccountViewProps) : Outcome VNode :=
  let? section := body props in
  Returns (page section).

(** One call of the function component: it reads its props, touches neither
    the ref nor the collaborators, and returns the tree. *)
Definition AccountView (props : AccountViewProps) : M (Outcome VNode) :=
  ret (render props).

End Render.

(* ===================================================================== *)
(** ** A mounted instance *)
(* ===================================================================== *)

Section Lifecycle.

Variable t : string -> string.
Variable IMAGES_BASE_URI : string.

(** What happens to a mounted instance: the host renders it again with new
    props, or the user clicks a button. *)
Inductive Action : Type :=
| Rerender (props : AccountViewProps)
| Click (h : Handler).

(** An instance between two events: the props of its last render (the ones
    the handlers close over), the dependency array [isAuthenticated] that
    [useEffect] remembers from that render, and the store. *)
Record Instance : Type := mkInstance {
  current  : AccountViewProps;
  lastDeps : bool;
  store    : Store
}.

(** [useRef(false)] on the first render, nothing done yet. *)
Definition initialStore : Store := mkStore false [].

(** The commit after a call of the component function: the effect callback
    is run when the call returned a tree and [useEffect] asks for it. *)
Definition commit (rendered : Outcome VNode) (wanted : bool)
                  (effect : M unit) : M unit :=
  match rendered with
  | Returns _ => if wanted then effect else ret tt
  | Throws _ => ret tt
  end.

(** First render: the component function runs, then the effect. *)
Definition mount (props : AccountViewProps) : Instance :=
  mkInstance props (isAuthenticated props)
    (exec (rendered <- AccountView t IMAGES_BASE_URI props ;;
           commit rendered true (authEffect props))
          initialStore).

(** A later render: the component function runs; the effect runs only when
    its dependency [isAuthenticated] differs from the remembered one. *)
Definition rerender (props : AccountViewProps) (i : Instance) : Instance :=
  mkInstance props (isAuthenticated props)
    (exec (rendered <- AccountView t IMAGES_BASE_URI props ;;
           commit rendered
                  (negb (Bool.eqb (isAuthenticated props) (lastDeps i)))
                  (authEffect props))
          (store i)).

Definition handler (h : Handler) (props : AccountViewProps) : M unit :=
  match h with
  | Click_onDone => perform CallOnDone
  | Click_handleConnectClick => handleConnectClick
  | Click_handleLogoutClick => handleLogoutClick
  | Click_handleVisitCloudWebsite => handleVisitCloudWebsite props
  end.

Definition click (h : Handler) (i : Instance) : Instance :=
  mkInstance (current i) (lastDeps i) (exec (handler h (current i)) (store i)).

Definition step (i : Instance) (a : Action) : Instance :=
  match a with
  | Rerender props => rerender props i
  | Click h => click h i
  end.

(** The instance after mounting with [props] and going through [acts]. *)
Definition run (props : AccountViewProps) (acts : list Action) : Instance :=
  fold_left step acts (mount props).

End Lifecycle.

(* ===================================================================== *)
(** ** Reading a history *)
(* ===================================================================== *)

(** The [isAuthenticated] values an instance was rendered with, in order. *)
Fixpoint renderedAuth (acts : list Action) : list bool :=
  match acts with
  | [] => []
  | Rerender p :: acts' => isAuthenticated p :: renderedAuth acts'
  | Click _ :: acts' => renderedAuth acts'
  end.

Definition observedAuth (props : AccountViewProps) (acts : list Action)
  : list bool :=
  isAuthenticated props :: renderedAuth acts.

(** How many times event [e] was captured. *)
Fixpoint captured (e : TelemetryEventName) (l : list Effect) : nat :=
  match l with
  | [] => 0
  | Capture e' :: l' =>
      (if TelemetryEventName_eqb e e' then 1 else 0) + captured e l'
  | _ :: l' => captured e l'
  end.

(** The messages posted, in order. *)
Fixpoint posted (l : list Effect) : list WebviewMessage :=
  match l with
  | [] => []
  | PostMessage m :: l' => m :: posted l'
  | _ :: l' => posted l'
  end.

(** Falling edges of a sequence: places where [true] is followed by
    [false]. *)
Fixpoint fallingEdges (l : list bool) : nat :=
  match l with
  | [] => 0
  | a :: l' =>
      match l' with
      | [] => 0
      | b :: _ => (if a && negb b then 1 else 0) + fallingEdges l'
      end
  end.

(** The maximal runs of equal values of a sequence, each with its value and
    its length. *)
Fixpoint runs (l : list bool) : list (bool * nat) :=
  match l with
  | [] => []
  | a :: l' =>
      match runs l' with
      | [] => [(a, 1)]
      | (b, n) :: r =>
          if Bool.eqb a b then (a, S n) :: r else (a, 1) :: (b, n) :: r
      end
  end.

(** The maximal runs of [true] that are immediately followed by [false]:
    the runs of [true] other than a run the sequence ends with. *)
Fixpoint closedTrueRuns (r : list (bool * nat)) : nat :=
  match r with
  | [] => 0
  | (a, _) :: r' =>
      match r' with
      | [] => 0
      | _ :: _ => (if a then 1 else 0) + closedTrueRuns r'
      end
  end.

(** What holds of an instance between two events: the remembered dependency
    and the cell both equal the last rendered [isAuthenticated], the last
    observed value, and the captures so far count the falling edges. *)
Definition consistent (p : AccountViewProps) (acts : list Action)
                      (i : Instance) : Prop :=
  lastDeps i = isAuthenticated (current i) /\
  wasAuthenticatedRef (store i) = isAuthenticated (current i) /\
  isAuthenticated (current i) =
    last (observedAuth p acts) (isAuthenticated p) /\
  captured ACCOUNT_LOGOUT_SUCCESS (effects (store i)) =
    fallingEdges (observedAuth p acts).

(* ===================================================================== *)
(** ** The specification's wording, for comparison *)
(* ===================================================================== *)

Definition defaultCloudUrl : string := "https://app.roocode.com".

(** The url of the open-external command as the specification words it:
    "[url = cloudApiUrl] if provided, else a fixed default URL constant". *)
Definition spec_visitUrl (cloudApiUrl : option string) : string :=
  match cloudApiUrl with
  | Some u => u
  | None => defaultCloudUrl
  end.

(** The avatar letter as the specification words it: the first character of
    the name when the name is present, otherwise the first character of the
    email when the email is present, otherwise the placeholder. *)
Definition spec_avatarLetter (u : CloudUserInfo) : string :=
  match name u with
  | Some n => charAt n 0
  | None =>
      match email u with
      | Some e => charAt e 0
      | None => "?"
      end
  end.

(** The letter the code shows: empty strings count as absent. *)
Definition initialLetter (nm em : option string) : string :=
  match nm with
  | Some (String c _) => String c EmptyString
  | _ =>
      match em with
      | Some (String c _) => String c EmptyString
      | _ => "?"
      end
  end.

(** The url the code posts: the empty string counts as absent. *)
Definition visitUrl (cloudApiUrl : option string) : string :=
  match cloudApiUrl with
  | Some (String c u) => String c u
  | _ => defaultCloudUrl
  end.

(** The avatar that shows a letter in place of a picture. *)
Definition letterAvatar (letter : string) : VNode :=
  Element "div" [className "w-16 h-16 mb-3 rounded-full overflow-hidden"]
    [Element "div"
       [className "w-full h-full flex items-center justify-center bg-vscode-button-background text-vscode-button-foreground text-xl"]
       [Text letter]].

(* ===================================================================== *)
(** ** Reading a tree and a history, continued *)
(* ===================================================================== *)

Fixpoint onClicks (l : list Attr) : list Handler :=
  match l with
  | [] => []
  | OnClick h :: l' => h :: onClicks l'
  | _ :: l' => onClicks l'
  end.

(** The handlers the elements of a tree are bound to, in document order. *)
Fixpoint handlers (n : VNode) : list Handler :=
  match n with
  | Element _ attrs children =>
      onClicks attrs ++
      (fix all (l : list VNode) : list Handler :=
         match l with
         | [] => []
         | c :: l' => handlers c ++ all l'
         end) children
  | Fragment children =>
      (fix all (l : list VNode) : list Handler :=
         match l with
         | [] => []
         | c :: l' => handlers c ++ all l'
         end) children
  | Text _ => []
  | Nothing => []
  end.

(** The value of the string attribute [key], if the element has one. *)
Fixpoint attribute (key : string) (l : list Attr) : option string :=
  match l with
  | [] => None
  | StrAttr k v :: l' => if String.eqb k key then v else attribute key l'
  | _ :: l' => attribute key l'
  end.

(** The [src] and [alt] of the [img] elements of a tree, in document
    order. *)
Fixpoint images (n : VNode) : list (option string * option string) :=
  match n with
  | Element tag attrs children =>
      (if String.eqb tag "img"
       then [(attribute "src" attrs, attribute "alt" attrs)] else []) ++
      (fix all (l : list VNode) : list (option string * option string) :=
         match l with
         | [] => []
         | c :: l' => images c ++ all l'
         end) children
  | Fragment children =>
      (fix all (l : list VNode) : list (option string * option string) :=
         match l with
         | [] => []
         | c :: l' => images c ++ all l'
         end) children
  | Text _ => []
  | Nothing => []
  end.


(** An instance going through [acts], from wherever it is. *)
Definition runFrom (t : string -> string) (IMAGES_BASE_URI : string)
                   (i : Instance) (acts : list Action) : Instance :=
  fold_left (step t IMAGES_BASE_URI) acts i.

(** How many clicks on the button bound to [h] a history has. *)
Fixpoint clicks (h : Handler) (acts : list Action) : nat :=
  match acts with
  | [] => 0
  | Click h' :: acts' => (if Handler_eqb h h' then 1 else 0) + clicks h acts'
  | Rerender _ :: acts' => clicks h acts'
  end.

(** How many times [onDone] was called. *)
Fixpoint onDoneCalls (l : list Effect) : nat :=
  match l with
  | [] => 0
  | CallOnDone :: l' => 1 + onDoneCalls l'
  | _ :: l' => onDoneCalls l'
  end.

(** The messages a history posts, read off the history alone: one for each
    click on connect, log out or visit-website, the last with the
    [cloudApiUrl] of the latest render before the click. *)
Fixpoint clickMessages (latest : AccountViewProps) (acts : list Action)
  : list WebviewMessage :=
  match acts with
  | [] => []
  | Rerender p :: acts' => clickMessages p acts'
  | Click Click_onDone :: acts' => clickMessages latest acts'
  | Click Click_handleConnectClick :: acts' =>
      mkMessage "rooCloudSignIn" None :: clickMessages latest acts'
  | Click Click_handleLogoutClick :: acts' =>
      mkMessage "rooCloudSignOut" None :: clickMessages latest acts'
  | Click Click_handleVisitCloudWebsite :: acts' =>
      mkMessage "openExternal" (Some (visitUrl (cloudApiUrl latest)))
      :: clickMessages latest acts'
  end.

(** A message the host can act on: a sign-in or sign-out request without a
    url, or an open-external request with a non-empty url. *)
Definition wellFormed (m : WebviewMessage) : bool :=
  if String.eqb (type m) "openExternal" then truthy (url m)
  else (String.eqb (type m) "rooCloudSignIn"
        || String.eqb (type m) "rooCloudSignOut")
       && match url m with None => true | Some _ => false end.

(** The messages the buttons of a tree post when clicked, in document
    order, for an instance last rendered with [props]. *)
Definition offeredMessages (props : AccountViewProps) (tree : VNode)
  : list WebviewMessage :=
  flat_map (fun h => posted (effects (exec (handler h props) initialStore)))
           (handlers tree).

(** The click event that goes with a message: connect-clicked with a
    sign-in or open-external request, logout-clicked with a sign-out
    request. *)
Definition announces (e : TelemetryEventName) (m : WebviewMessage) : bool :=
  match e with
  | ACCOUNT_CONNECT_CLICKED =>
      String.eqb (type m) "rooCloudSignIn" || String.eqb (type m) "openExternal"
  | ACCOUNT_LOGOUT_CLICKED => String.eqb (type m) "rooCloudSignOut"
  | ACCOUNT_LOGOUT_SUCCESS => false
  end.

(** Whether every posted message of a trace comes directly after the
    capture of its click event; [prev] is the effect before the trace. *)
Fixpoint announced (prev : option Effect) (l : list Effect) : bool :=
  match l with
  | [] => true
  | PostMessage m :: l' =>
      match prev with
      | Some (Capture e) => announces e m
      | _ => false
      end && announced (Some (PostMessage m)) l'
  | x :: l' => announced (Some x) l'
  end.

(* ===================================================================== *)
(** ** Stores and handlers *)
(* ===================================================================== *)

Lemma exec_bind {A B : Type} (c : M A) (k : A -> M B) (s : Store) :
  exec (bind c k) s = exec (k (fst (c s))) (snd (c s)).
Proof. unfold exec, bind. destruct (c s); reflexivity. Qed.

Lemma exec_perform (e : Effect) (s : Store) :
  exec (perform e) s = mkStore (wasAuthenticatedRef s) (effects s ++ [e]).
Proof. reflexivity. Qed.

Lemma exec_handleConnectClick (s : Store) :
  exec handleConnectClick s =
  mkStore (wasAuthenticatedRef s)
    (effects s ++ [Capture ACCOUNT_CONNECT_CLICKED;
                   PostMessage (mkMessage "rooCloudSignIn" None)]).
Proof.
  unfold handleConnectClick, exec, bind; cbn.
  now rewrite <- app_assoc.
Qed.

Lemma exec_handleLogoutClick (s : Store) :
  exec handleLogoutClick s =
  mkStore (wasAuthenticatedRef s)
    (effects s ++ [Capture ACCOUNT_LOGOUT_CLICKED;
                   PostMessage (mkMessage "rooCloudSignOut" None)]).
Proof.
  unfold handleLogoutClick, exec, bind; cbn.
  now rewrite <- app_assoc.
Qed.

Lemma js_or_default (v : option string) :
  js_or v (Some defaultCloudUrl) = Some (visitUrl v).
Proof. destruct v as [[|c u]|]; reflexivity. Qed.

Lemma exec_handleVisitCloudWebsite (p : AccountViewProps) (s : Store) :
  exec (handleVisitCloudWebsite p) s =
  mkStore (wasAuthenticatedRef s)
    (effects s ++ [Capture ACCOUNT_CONNECT_CLICKED;
                   PostMessage (mkMessage "openExternal"
                                  (Some (visitUrl (cloudApiUrl p))))]).
Proof.
  unfold handleVisitCloudWebsite, exec, bind; cbn.
  fold defaultCloudUrl. rewrite js_or_default.
  now rewrite <- app_assoc.
Qed.

(** What one run of the effect callback does to a store. *)
Lemma exec_authEffect (p : AccountViewProps) (s : Store) :
  exec (authEffect p) s =
  mkStore (isAuthenticated p)
    (effects s ++
     if wasAuthenticatedRef s && negb (isAuthenticated p)
     then [Capture ACCOUNT_LOGOUT_SUCCESS] else []).
Proof.
  unfold authEffect, exec, bind.
  destruct s as [was l], (isAuthenticated p), was; cbn;
    rewrite ?app_nil_r; reflexivity.
Qed.

Lemma captured_app (e : TelemetryEventName) (l l' : list Effect) :
  captured e (l ++ l') = captured e l + captured e l'.
Proof.
  induction l as [|x l IH]; cbn; [reflexivity|].
  destruct x; rewrite IH; lia.
Qed.

Lemma posted_app (l l' : list Effect) :
  posted (l ++ l') = posted l ++ posted l'.
Proof.
  induction l as [|x l IH]; cbn; [reflexivity|].
  destruct x; cbn; now rewrite IH.
Qed.

(* ===================================================================== *)
(** ** The rendered tree *)
(* ===================================================================== *)

Section RenderFacts.

Variable t : string -> string.
Variable IMAGES_BASE_URI : string.

(** With a user record at hand every property read succeeds, and nothing in
    the profile block is clickable. *)
Lemma profileBlock_returns (r : CloudUserInfo) :
  exists profile,
    profileBlock t (Some r) = Returns profile /\
    forall h, has_onClick h profile = false.
Proof.
  destruct r as [nm em pic org img].
  destruct nm as [[|c1 s1]|], em as [[|c2 s2]|], pic as [[|c3 s3]|],
           org as [[|c4 s4]|], img as [[|c5 s5]|];
    (eexists; split; [reflexivity | intros []; reflexivity]).
Qed.

(** Without a picture the profile block opens with the letter avatar. *)
Lemma profileBlock_letter (nm em org img : option string) :
  exists nameLine emailLine orgLine,
    profileBlock t (Some (mkCloudUserInfo nm em None org img)) =
    Returns (Element "div" [className "flex flex-col items-center mb-6"]
               [letterAvatar (initialLetter nm em);
                nameLine; emailLine; orgLine]).
Proof.
  destruct nm as [[|c1 s1]|], em as [[|c2 s2]|],
           org as [[|c4 s4]|], img as [[|c5 s5]|];
    (do 3 eexists; reflexivity).
Qed.

Lemma render_signed_out (u : option CloudUserInfo) (c : option string) :
  render t IMAGES_BASE_URI (mkProps u false c) =
  Returns (page t (Fragment (unauthenticatedSection t IMAGES_BASE_URI))).
Proof. reflexivity. Qed.

Lemma render_signed_in_null (c : option string) :
  render t IMAGES_BASE_URI (mkProps None true c) =
  Returns (page t (Fragment [Nothing; authenticatedActions t])).
Proof. reflexivity. Qed.

Lemma render_signed_in_user (r : CloudUserInfo) (c : option string) :
  exists profile,
    profileBlock t (Some r) = Returns profile /\
    (forall h, has_onClick h profile = false) /\
    render t IMAGES_BASE_URI (mkProps (Some r) true c) =
    Returns (page t (Fragment [profile; authenticatedActions t])).
Proof.
  destruct (profileBlock_returns r) as [profile [E H]].
  exists profile. repeat split; trivial.
  unfold render, body; cbn. rewrite E. reflexivity.
Qed.

Lemma has_onClick_page (h : Handler) (section : VNode) :
  has_onClick h (page t section) =
  Handler_eqb h Click_onDone || has_onClick h section.
Proof. destruct h; cbn; rewrite ?orb_false_r; reflexivity. Qed.

(** Every render returns a tree, and the tree shows the layout that
    [isAuthenticated] selects. *)
Lemma render_returns (p : AccountViewProps) :
  exists tree,
    render t IMAGES_BASE_URI p = Returns tree /\
    renderMode tree = Some (if isAuthenticated p then SignedIn else SignedOut).
Proof.
  destruct p as [u [|] c].
  - destruct u as [r|].
    + destruct (render_signed_in_user r c) as [profile [_ [H ->]]].
      eexists; split; [reflexivity|].
      unfold renderMode. rewrite !has_onClick_page. cbn.
      rewrite !H. reflexivity.
    + eexists; split; [apply render_signed_in_null | reflexivity].
  - eexists; split; [apply render_signed_out | reflexivity].
Qed.

End RenderFacts.

(* ===================================================================== *)
(** ** Edges and runs of a sequence *)
(* ===================================================================== *)

Lemma last_cons_default (y : bool) (l : list bool) (d d' : bool) :
  last (y :: l) d = last (y :: l) d'.
Proof.
  revert y; induction l as [|z l IH]; intros y; [reflexivity|].
  change (last (z :: l) d = last (z :: l) d'). apply IH.
Qed.

Lemma fallingEdges_snoc (x : bool) (l : list bool) (a : bool) :
  fallingEdges ((x :: l) ++ [a]) =
  fallingEdges (x :: l) + (if last (x :: l) x && negb a then 1 else 0).
Proof.
  revert x; induction l as [|y l IH]; intros x.
  - cbn. lia.
  - specialize (IH y).
    change (fallingEdges ((x :: y :: l) ++ [a]))
      with ((if x && negb y then 1 else 0) + fallingEdges ((y :: l) ++ [a])).
    change (fallingEdges (x :: y :: l))
      with ((if x && negb y then 1 else 0) + fallingEdges (y :: l)).
    rewrite IH.
    replace (last (x :: y :: l) x) with (last (y :: l) y).
    + lia.
    + change (last (x :: y :: l) x) with (last (y :: l) x).
      apply last_cons_default.
Qed.

Lemma last_snoc_cons (x : bool) (l : list bool) (a : bool) :
  last ((x :: l) ++ [a]) x = a.
Proof. apply (last_last (x :: l) a x). Qed.

Lemma runs_head (b : bool) (l : list bool) :
  exists n r, runs (b :: l) = (b, n) :: r.
Proof.
  cbn. destruct (runs l) as [|[b' n] r].
  - now exists 1, [].
  - destruct (Bool.eqb b b').
    + now exists (S n), r.
    + now exists 1, ((b', n) :: r).
Qed.

(** A falling edge closes a maximal run of [true], and the other way
    round. *)
Lemma closedTrueRuns_fallingEdges (l : list bool) :
  closedTrueRuns (runs l) = fallingEdges l.
Proof.
  induction l as [|a l IH]; [reflexivity|].
  destruct l as [|b l]; [reflexivity|].
  change (fallingEdges (a :: b :: l))
    with ((if a && negb b then 1 else 0) + fallingEdges (b :: l)).
  rewrite <- IH.
  destruct (runs_head b l) as [n [r E]].
  change (runs (a :: b :: l))
    with (match runs (b :: l) with
          | [] => [(a, 1)]
          | (b', n') :: r' =>
              if Bool.eqb a b' then (a, S n') :: r' else (a, 1) :: (b', n') :: r'
          end).
  rewrite E.
  destruct a, b; cbn; destruct r; reflexivity.
Qed.

(* ===================================================================== *)
(** ** Mounted instances *)
(* ===================================================================== *)

Section LifecycleFacts.

Variable t : string -> string.
Variable IMAGES_BASE_URI : string.


(** A render followed by its commit runs the effect exactly when asked. *)
Lemma exec_render_commit (p : AccountViewProps) (wanted : bool)
      (effect : M unit) (s : Store) :
  exec (rendered <- AccountView t IMAGES_BASE_URI p ;;
        commit rendered wanted effect) s =
  if wanted then exec effect s else s.
Proof.
  rewrite exec_bind. unfold AccountView, ret; cbn.
  destruct (render_returns t IMAGES_BASE_URI p) as [tree [-> _]]; cbn.
  destruct wanted; reflexivity.
Qed.

Lemma store_mount (p : AccountViewProps) :
  store (mount t IMAGES_BASE_URI p) = mkStore (isAuthenticated p) [].
Proof.
  unfold mount; cbn [store].
  rewrite exec_render_commit, exec_authEffect. reflexivity.
Qed.

Lemma store_rerender (p : AccountViewProps) (i : Instance) :
  store (rerender t IMAGES_BASE_URI p i) =
  if Bool.eqb (isAuthenticated p) (lastDeps i) then store i
  else exec (authEffect p) (store i).
Proof.
  unfold rerender; cbn [store].
  rewrite exec_render_commit.
  destruct (Bool.eqb (isAuthenticated p) (lastDeps i)); reflexivity.
Qed.

(** A click leaves the cell alone and captures no logout-succeeded. *)
Lemma exec_handler (h : Handler) (p : AccountViewProps) (s : Store) :
  exists l,
    exec (handler h p) s = mkStore (wasAuthenticatedRef s) (effects s ++ l) /\
    captured ACCOUNT_LOGOUT_SUCCESS l = 0.
Proof.
  destruct h; cbn [handler].
  - exists [CallOnDone]. split; reflexivity.
  - eexists. split; [apply exec_handleConnectClick | reflexivity].
  - eexists. split; [apply exec_handleLogoutClick | reflexivity].
  - eexists. split; [apply exec_handleVisitCloudWebsite | reflexivity].
Qed.

Lemma run_snoc (p : AccountViewProps) (acts : list Action) (a : Action) :
  run t IMAGES_BASE_URI p (acts ++ [a]) =
  step t IMAGES_BASE_URI (run t IMAGES_BASE_URI p acts) a.
Proof. unfold run. now rewrite fold_left_app. Qed.

Lemma observedAuth_rerender (p : AccountViewProps) (acts : list Action)
      (p' : AccountViewProps) :
  observedAuth p (acts ++ [Rerender p']) =
  observedAuth p acts ++ [isAuthenticated p'].
Proof.
  unfold observedAuth. cbn. f_equal.
  induction acts as [|[q|h] acts IH]; cbn; [reflexivity | now rewrite IH | exact IH].
Qed.

Lemma observedAuth_click (p : AccountViewProps) (acts : list Action)
      (h : Handler) :
  observedAuth p (acts ++ [Click h]) = observedAuth p acts.
Proof.
  unfold observedAuth. f_equal.
  induction acts as [|[q|h'] acts IH]; cbn; [reflexivity | now rewrite IH | exact IH].
Qed.

Lemma run_consistent (p : AccountViewProps) (acts : list Action) :
  consistent p acts (run t IMAGES_BASE_URI p acts).
Proof.
  induction acts as [|a acts IH] using rev_ind.
  - unfold consistent, run; cbn [fold_left].
    rewrite store_mount. repeat split; reflexivity.
  - rewrite run_snoc.
    destruct IH as (Hd & Hw & Hl & Hc).
    set (i := run t IMAGES_BASE_URI p acts) in *.
    destruct a as [p'|h]; cbn [step].
    + unfold consistent. rewrite observedAuth_rerender, store_rerender.
      cbn [lastDeps current rerender].
      unfold observedAuth at 1. rewrite last_snoc_cons.
      unfold observedAuth. rewrite fallingEdges_snoc.
      fold (observedAuth p acts). rewrite <- Hl, <- Hc, Hd.
      repeat split.
      * destruct (Bool.eqb (isAuthenticated p') (isAuthenticated (current i))) eqn:E.
        -- apply eqb_prop in E. congruence.
        -- now rewrite exec_authEffect.
      * destruct (Bool.eqb (isAuthenticated p') (isAuthenticated (current i))) eqn:E.
        -- apply eqb_prop in E. rewrite E. destruct (isAuthenticated (current i)); cbn; lia.
        -- rewrite exec_authEffect; cbn [effects]. rewrite captured_app, Hw.
           destruct (isAuthenticated (current i)), (isAuthenticated p'); cbn; lia.
    + unfold consistent, click. rewrite observedAuth_click.
      cbn [lastDeps current store].
      destruct (exec_handler h (current i) (store i)) as [l [-> Hl0]].
      cbn [wasAuthenticatedRef effects]. rewrite captured_app, Hl0.
      repeat split; trivial. lia.
Qed.

(** The effects one more render adds to an instance that was mounted and
    went through [acts]. *)
Lemma effects_rerender (p : AccountViewProps) (acts : list Action)
      (p' : AccountViewProps) :
  effects (store (rerender t IMAGES_BASE_URI p' (run t IMAGES_BASE_URI p acts))) =
  effects (store (run t IMAGES_BASE_URI p acts)) ++
  if last (observedAuth p acts) (isAuthenticated p) && negb (isAuthenticated p')
  then [Capture ACCOUNT_LOGOUT_SUCCESS] else [].
Proof.
  destruct (run_consistent p acts) as (Hd & Hw & Hl & _).
  rewrite store_rerender, Hd, <- Hl.
  destruct (Bool.eqb (isAuthenticated p') (isAuthenticated (current (run t IMAGES_BASE_URI p acts)))) eqn:E.
  - apply eqb_prop in E. rewrite E.
    destruct (isAuthenticated (current (run t IMAGES_BASE_URI p acts))); cbn; now rewrite app_nil_r.
  - rewrite exec_authEffect; cbn [effects]. now rewrite Hw.
Qed.

End LifecycleFacts.

(* ===================================================================== *)
(** ** The transition tracker *)
(* ===================================================================== *)

(** C1.  For every history of one mounted instance (renders, with clicks in
    between), the number of logout-succeeded events captured equals the
    number of maximal runs of [true] in the observed [isAuthenticated]
    values that are immediately followed by [false], that is, the number of
    falling edges.  Mounting captures nothing, whatever the first value is;
    a later render captures exactly one logout-succeeded event when the
    previous observed value was [true] and the new one is [false], and
    nothing at all on a rising edge or when the value is unchanged. *)
Theorem logout_success_once_per_closed_run :
  forall (t : string -> string) (IMAGES_BASE_URI : string)
         (p : AccountViewProps) (acts : list Action),
    let i := run t IMAGES_BASE_URI p acts in
    let seen := observedAuth p acts in
    captured ACCOUNT_LOGOUT_SUCCESS (effects (store i)) =
      closedTrueRuns (runs seen) /\
    captured ACCOUNT_LOGOUT_SUCCESS (effects (store i)) = fallingEdges seen /\
    effects (store (mount t IMAGES_BASE_URI p)) = [] /\
    forall p' : AccountViewProps,
      effects (store (rerender t IMAGES_BASE_URI p' i)) =
      effects (store i) ++
      if last seen (isAuthenticated p) && negb (isAuthenticated p')
      then [Capture ACCOUNT_LOGOUT_SUCCESS] else [].
Proof.
  intros t base p acts i seen.
  destruct (run_consistent t base p acts) as (_ & _ & _ & Hc).
  split; [|split; [|split]].
  - unfold seen. now rewrite closedTrueRuns_fallingEdges.
  - exact Hc.
  - now rewrite store_mount.
  - intros p'. apply effects_rerender.
Qed.

(** Mounted signed out and rendered signed out twice more: no
    logout-succeeded event. *)
Example stays_signed_out :
  let p := mkProps None false None in
  captured ACCOUNT_LOGOUT_SUCCESS
    (effects (store (run (fun k => k) "" p [Rerender p; Rerender p]))) = 0.
Proof. reflexivity. Qed.

(** [false -> true -> false -> true -> false]: two logout-succeeded events,
    captured by the third and the fifth render. *)
Example two_falling_edges :
  let out := mkProps None false None in
  let into := mkProps None true None in
  effects (store (run (fun k => k) "" out
                      [Rerender into; Rerender out; Rerender into])) =
    [Capture ACCOUNT_LOGOUT_SUCCESS] /\
  effects (store (run (fun k => k) "" out
                      [Rerender into; Rerender out; Rerender into;
                       Rerender out])) =
    [Capture ACCOUNT_LOGOUT_SUCCESS; Capture ACCOUNT_LOGOUT_SUCCESS].
Proof. split; reflexivity. Qed.

(** C8.  The cell starts out [false] when the instance is created.  The
    three click handlers and the component function itself leave it as it
    is, and so does a render whose [isAuthenticated] is the remembered one:
    only the effect callback writes it. *)
Theorem wasAuthenticatedRef_written_by_effect_only :
  forall (t : string -> string) (IMAGES_BASE_URI : string),
    wasAuthenticatedRef initialStore = false /\
    (forall s, wasAuthenticatedRef (exec handleConnectClick s) =
               wasAuthenticatedRef s) /\
    (forall s, wasAuthenticatedRef (exec handleLogoutClick s) =
               wasAuthenticatedRef s) /\
    (forall p s, wasAuthenticatedRef (exec (handleVisitCloudWebsite p) s) =
                 wasAuthenticatedRef s) /\
    (forall p s, wasAuthenticatedRef (exec (AccountView t IMAGES_BASE_URI p) s) =
                 wasAuthenticatedRef s) /\
    (forall h i, wasAuthenticatedRef (store (click h i)) =
                 wasAuthenticatedRef (store i)) /\
    (forall p i, wasAuthenticatedRef (store (rerender t IMAGES_BASE_URI p i)) =
                 if Bool.eqb (isAuthenticated p) (lastDeps i)
                 then wasAuthenticatedRef (store i)
                 else isAuthenticated p).
Proof.
  intros t base.
  split; [reflexivity|].
  split; [intros s; now rewrite exec_handleConnectClick|].
  split; [intros s; now rewrite exec_handleLogoutClick|].
  split; [intros p s; now rewrite exec_handleVisitCloudWebsite|].
  split; [intros p s; reflexivity|].
  split.
  - intros h i. unfold click; cbn [store].
    destruct (exec_handler h (current i) (store i)) as [l [-> _]].
    reflexivity.
  - intros p i. rewrite store_rerender.
    destruct (Bool.eqb (isAuthenticated p) (lastDeps i)); [reflexivity|].
    now rewrite exec_authEffect.
Qed.

(** C9.  After the effect callback has run, the cell holds the
    [isAuthenticated] value the callback saw: [true] after seeing [true],
    [false] after a falling edge, and still [false] (the store is untouched)
    after seeing [false] with the cell [false]. *)
Theorem authEffect_stores_observed_value :
  forall (p : AccountViewProps) (s : Store),
    wasAuthenticatedRef (exec (authEffect p) s) = isAuthenticated p /\
    (forall u c l was,
       exec (authEffect (mkProps u true c)) (mkStore was l) = mkStore true l) /\
    (forall u c l,
       exec (authEffect (mkProps u false c)) (mkStore true l) =
       mkStore false (l ++ [Capture ACCOUNT_LOGOUT_SUCCESS])) /\
    (forall u c l,
       exec (authEffect (mkProps u false c)) (mkStore false l) =
       mkStore false l).
Proof.
  intros p s.
  split; [now rewrite exec_authEffect|].
  split; [|split].
  - intros u c l was. rewrite exec_authEffect; cbn.
    rewrite andb_false_r. now rewrite app_nil_r.
  - intros u c l. now rewrite exec_authEffect.
  - intros u c l. rewrite exec_authEffect; cbn. now rewrite app_nil_r.
Qed.

(* ===================================================================== *)
(** ** The command dispatcher *)
(* ===================================================================== *)

(** C2.  A click on connect adds exactly two effects, in this order: one
    capture of connect-clicked, then one posted message of type
    [rooCloudSignIn] (the sign-in request).  This holds in every instance,
    whatever [isAuthenticated] its props carry, and the cell is left as it
    is. *)
Theorem connect_emits_then_posts :
  forall (i : Instance) (s : Store),
    store (click Click_handleConnectClick i) =
      mkStore (wasAuthenticatedRef (store i))
        (effects (store i) ++
         [Capture ACCOUNT_CONNECT_CLICKED;
          PostMessage (mkMessage "rooCloudSignIn" None)]) /\
    exec handleConnectClick s =
      mkStore (wasAuthenticatedRef s)
        (effects s ++
         [Capture ACCOUNT_CONNECT_CLICKED;
          PostMessage (mkMessage "rooCloudSignIn" None)]) /\
    captured ACCOUNT_CONNECT_CLICKED (effects (exec handleConnectClick s)) =
      captured ACCOUNT_CONNECT_CLICKED (effects s) + 1 /\
    posted (effects (exec handleConnectClick s)) =
      posted (effects s) ++ [mkMessage "rooCloudSignIn" None].
Proof.
  intros i s.
  split; [unfold click; cbn [store handler]; apply exec_handleConnectClick|].
  split; [apply exec_handleConnectClick|].
  rewrite exec_handleConnectClick; cbn [effects].
  rewrite captured_app, posted_app. split; reflexivity.
Qed.

(** C3.  A click on log out adds exactly two effects and no other: one
    capture of logout-clicked first, then one posted message of type
    [rooCloudSignOut] (the sign-out request). *)
Theorem disconnect_emits_then_posts :
  forall (i : Instance) (s : Store),
    store (click Click_handleLogoutClick i) =
      mkStore (wasAuthenticatedRef (store i))
        (effects (store i) ++
         [Capture ACCOUNT_LOGOUT_CLICKED;
          PostMessage (mkMessage "rooCloudSignOut" None)]) /\
    exec handleLogoutClick s =
      mkStore (wasAuthenticatedRef s)
        (effects s ++
         [Capture ACCOUNT_LOGOUT_CLICKED;
          PostMessage (mkMessage "rooCloudSignOut" None)]) /\
    captured ACCOUNT_LOGOUT_CLICKED (effects (exec handleLogoutClick s)) =
      captured ACCOUNT_LOGOUT_CLICKED (effects s) + 1 /\
    captured ACCOUNT_CONNECT_CLICKED (effects (exec handleLogoutClick s)) =
      captured ACCOUNT_CONNECT_CLICKED (effects s) /\
    captured ACCOUNT_LOGOUT_SUCCESS (effects (exec handleLogoutClick s)) =
      captured ACCOUNT_LOGOUT_SUCCESS (effects s) /\
    posted (effects (exec handleLogoutClick s)) =
      posted (effects s) ++ [mkMessage "rooCloudSignOut" None].
Proof.
  intros i s.
  split; [unfold click; cbn [store handler]; apply exec_handleLogoutClick|].
  split; [apply exec_handleLogoutClick|].
  rewrite exec_handleLogoutClick; cbn [effects].
  rewrite !captured_app, posted_app; cbn.
  repeat split; lia.
Qed.

(** C4, as the code has it.  A click on visit-website adds exactly two
    effects: one capture of connect-clicked (the reused event), then one
    posted message of type [openExternal] whose url is [cloudApiUrl] when
    that prop is provided and is not the empty string, and the default
    [https://app.roocode.com] otherwise. *)
Theorem visit_website_emits_then_posts :
  forall (p : AccountViewProps) (i : Instance) (s : Store),
    exec (handleVisitCloudWebsite p) s =
      mkStore (wasAuthenticatedRef s)
        (effects s ++
         [Capture ACCOUNT_CONNECT_CLICKED;
          PostMessage
            (mkMessage "openExternal"
               (Some match cloudApiUrl p with
                     | Some (String c u) => String c u
                     | Some EmptyString => "https://app.roocode.com"
                     | None => "https://app.roocode.com"
                     end))]) /\
    store (click Click_handleVisitCloudWebsite i) =
      exec (handleVisitCloudWebsite (current i)) (store i) /\
    (forall (u : option CloudUserInfo) (a : bool) (c : ascii) (rest : string),
       posted (effects (exec (handleVisitCloudWebsite
                                (mkProps u a (Some (String c rest)))) s)) =
       posted (effects s) ++ [mkMessage "openExternal" (Some (String c rest))]) /\
    (forall (u : option CloudUserInfo) (a : bool),
       posted (effects (exec (handleVisitCloudWebsite (mkProps u a None)) s)) =
       posted (effects s) ++
       [mkMessage "openExternal" (Some "https://app.roocode.com")]).
Proof.
  intros p i s.
  split.
  { rewrite exec_handleVisitCloudWebsite. unfold visitUrl, defaultCloudUrl.
    destruct (cloudApiUrl p) as [[|c u]|]; reflexivity. }
  split; [reflexivity|].
  split; intros; rewrite exec_handleVisitCloudWebsite; cbn [effects];
    rewrite posted_app; reflexivity.
Qed.

(** C4, as stated, fails when [cloudApiUrl] is provided as the empty
    string: the url posted is the default, not the prop. *)
Lemma visit_website_empty_url_not_verbatim :
  let p := mkProps None true (Some "") in
  cloudApiUrl p = Some "" /\
  posted (effects (exec (handleVisitCloudWebsite p) initialStore)) =
    [mkMessage "openExternal" (Some "https://app.roocode.com")] /\
  posted (effects (exec (handleVisitCloudWebsite p) initialStore)) <>
    [mkMessage "openExternal" (Some (spec_visitUrl (cloudApiUrl p)))].
Proof.
  cbn. repeat split. discriminate.
Qed.

(** C10.  With [cloudApiUrl] the empty string, visit-website posts the
    default url [https://app.roocode.com] and not the empty string; it does
    the same with [cloudApiUrl] undefined.  Both falsy values are taken as
    absent. *)
Theorem visit_website_empty_url_is_default :
  forall (u : option CloudUserInfo) (a : bool) (s : Store),
    exec (handleVisitCloudWebsite (mkProps u a (Some ""))) s =
      mkStore (wasAuthenticatedRef s)
        (effects s ++
         [Capture ACCOUNT_CONNECT_CLICKED;
          PostMessage (mkMessage "openExternal"
                         (Some "https://app.roocode.com"))]) /\
    exec (handleVisitCloudWebsite (mkProps u a (Some ""))) s =
      exec (handleVisitCloudWebsite (mkProps u a None)) s /\
    posted (effects (exec (handleVisitCloudWebsite (mkProps u a (Some ""))) s)) <>
      posted (effects s) ++ [mkMessage "openExternal" (Some "")].
Proof.
  intros u a s.
  split; [now rewrite exec_handleVisitCloudWebsite|].
  split; [now rewrite !exec_handleVisitCloudWebsite|].
  rewrite exec_handleVisitCloudWebsite; cbn [effects].
  rewrite posted_app; cbn.
  intros H. apply app_inv_head in H. discriminate H.
Qed.

(* ===================================================================== *)
(** ** The view state projector *)
(* ===================================================================== *)

(** C5.  One call of the component returns a tree, leaves the store as it
    found it, and returns the same tree from any other store and with any
    other [cloudApiUrl]: the tree depends on [(isAuthenticated, userInfo)]
    alone.  The tree shows exactly one of the two layouts, the signed-in one
    when [isAuthenticated] is true and the signed-out one otherwise. *)
Theorem projector_is_pure_and_two_moded :
  forall (t : string -> string) (IMAGES_BASE_URI : string)
         (u : option CloudUserInfo) (a : bool) (c c' : option string)
         (s s' : Store),
  exists tree : VNode,
    AccountView t IMAGES_BASE_URI (mkProps u a c) s = (Returns tree, s) /\
    AccountView t IMAGES_BASE_URI (mkProps u a c') s' = (Returns tree, s') /\
    renderMode tree = Some (if a then SignedIn else SignedOut).
Proof.
  intros t base u a c c' s s'.
  destruct (render_returns t base (mkProps u a c)) as [tree [E Hm]].
  cbn [isAuthenticated] in Hm.
  exists tree. unfold AccountView, ret.
  assert (E' : render t base (mkProps u a c') = render t base (mkProps u a c))
    by reflexivity.
  rewrite E', E, Hm.
  repeat split.
Qed.

(** C6.  Signed in with [userInfo = null]: the render returns (it does not
    throw), the place of the profile block is empty, and the two
    authenticated buttons, visit-website and log out, are there; the only
    texts shown are the title, the done button and the two button labels. *)
Theorem signed_in_without_user_shows_actions_only :
  forall (t : string -> string) (IMAGES_BASE_URI : string)
         (c : option string),
    render t IMAGES_BASE_URI (mkProps None true c) =
      Returns (page t (Fragment [Nothing; authenticatedActions t])) /\
    has_onClick Click_handleVisitCloudWebsite (authenticatedActions t) = true /\
    has_onClick Click_handleLogoutClick (authenticatedActions t) = true /\
    has_onClick Click_handleConnectClick
      (page t (Fragment [Nothing; authenticatedActions t])) = false /\
    texts (page t (Fragment [Nothing; authenticatedActions t])) =
      [t "account:title"; t "settings:common.done";
       t "account:visitCloudWebsite"; t "account:logOut"].
Proof.
  intros t base c. repeat split.
Qed.

(** C7, as the code has it.  Signed in with a user record that has no
    picture: the render returns, and the profile block opens with the
    letter avatar, whose letter is the first character of the name when the
    name is present and not empty, otherwise the first character of the
    email when the email is present and not empty, otherwise ["?"].  A
    record with only the email [a@b.com] shows the letter ["a"]. *)
Theorem avatar_letter_fallback_chain :
  forall (t : string -> string) (IMAGES_BASE_URI : string)
         (nm em org img c : option string),
    let letter :=
      match nm with
      | Some (String x _) => String x EmptyString
      | _ =>
          match em with
          | Some (String y _) => String y EmptyString
          | _ => "?"
          end
      end in
    avatarInitial (Some (mkCloudUserInfo nm em None org img)) = Some letter /\
    (exists nameLine emailLine orgLine : VNode,
       render t IMAGES_BASE_URI
         (mkProps (Some (mkCloudUserInfo nm em None org img)) true c) =
       Returns
         (page t
            (Fragment
               [Element "div" [className "flex flex-col items-center mb-6"]
                  [letterAvatar letter; nameLine; emailLine; orgLine];
                authenticatedActions t]))) /\
    avatarInitial (Some (mkCloudUserInfo None (Some "a@b.com") None None None)) =
      Some "a".
Proof.
  intros t base nm em org img c letter.
  split; [|split].
  - subst letter. destruct nm as [[|x n]|], em as [[|y e]|]; reflexivity.
  - destruct (profileBlock_letter t nm em org img) as (n1 & n2 & n3 & E).
    exists n1, n2, n3.
    unfold render, body; cbn [isAuthenticated userInfo].
    rewrite E. reflexivity.
  - reflexivity.
Qed.

(** C7, as stated, fails when the name is present and empty: the letter
    shown is the first character of the email, not the (empty) first
    character of the name. *)
Lemma avatar_letter_empty_name_falls_through :
  let u := mkCloudUserInfo (Some "") (Some "a@b.com") None None None in
  name u = Some "" /\
  picture u = None /\
  avatarInitial (Some u) = Some "a" /\
  profilePicture (fun k => k) (Some u) = Returns (letterAvatar "a") /\
  avatarInitial (Some u) <> Some (spec_avatarLetter u).
Proof.
  cbn. repeat split. discriminate.
Qed.

(* ===================================================================== *)
(** ** The profile block and the two layouts *)
(* ===================================================================== *)

(** X1.  No props make the render throw: it returns a tree for every
    [userInfo], present with any fields or [null], and either value of
    [isAuthenticated].  The guard [userInfo && (...)] is what keeps it so:
    the profile block itself, evaluated on [null], throws at
    [userInfo.name]. *)
Theorem render_never_throws :
  forall (t : string -> string) (IMAGES_BASE_URI : string)
         (p : AccountViewProps),
    (exists tree : VNode, render t IMAGES_BASE_URI p = Returns tree) /\
    profileBlock t None = Throws "TypeError: Cannot read properties of null".
Proof.
  intros t base p. split; [|reflexivity].
  destruct (render_returns t base p) as [tree [E _]].
  now exists tree.
Qed.



(** X4.  Signed in with a user record, the images on the page are the
    profile picture, when it is a non-empty string, and the organization
    image, when both the organization name and the image url are non-empty
    strings, with the organization name as its [alt].  An organization image
    url without an organization name is never shown. *)
Theorem profile_images :
  forall (t : string -> string) (IMAGES_BASE_URI : string)
         (r : CloudUserInfo) (c : option string),
  exists tree : VNode,
    render t IMAGES_BASE_URI (mkProps (Some r) true c) = Returns tree /\
    images tree =
      (if truthy (picture r)
       then [(picture r, Some (t "account:profilePicture"))] else []) ++
      (if truthy (organizationName r) && truthy (organizationImageUrl r)
       then [(organizationImageUrl r, organizationName r)] else []).
Proof.
  intros t base [nm em pic org img] c.
  destruct nm as [[|c1 s1]|], em as [[|c2 s2]|], pic as [[|c3 s3]|],
           org as [[|c4 s4]|], img as [[|c5 s5]|];
    (eexists; split; reflexivity).
Qed.

(** X5.  Signed out, the page does not depend on [userInfo] or
    [cloudApiUrl]: a user record that is still present is not displayed.
    The texts are the title, the done label, the benefits and the connect
    label, and the only image is the logo at
    [IMAGES_BASE_URI + "/roo-logo.svg"]. *)
Theorem signed_out_page_ignores_user :
  forall (t : string -> string) (IMAGES_BASE_URI : string)
         (u u' : option CloudUserInfo) (c c' : option string),
  exists tree : VNode,
    render t IMAGES_BASE_URI (mkProps u false c) = Returns tree /\
    render t IMAGES_BASE_URI (mkProps u' false c') = Returns tree /\
    texts tree =
      [t "account:title"; t "settings:common.done";
       t "account:cloudBenefitsTitle"; t "account:cloudBenefitsSubtitle";
       "•"; t "account:cloudBenefitHistory";
       "•"; t "account:cloudBenefitSharing";
       "•"; t "account:cloudBenefitMetrics";
       t "account:connect"] /\
    images tree =
      [(Some (String.append IMAGES_BASE_URI "/roo-logo.svg"),
        Some "Roo logo")].
Proof.
  intros t base u u' c c'.
  eexists. split; [apply render_signed_out|].
  split; [apply render_signed_out|].
  split; reflexivity.
Qed.

Lemma handlers_page (t : string -> string) (section : VNode) :
  handlers (page t section) = Click_onDone :: handlers section.
Proof. cbn. now rewrite app_nil_r. Qed.

Lemma profileBlock_handlers (t : string -> string) (r : CloudUserInfo) :
  exists profile,
    profileBlock t (Some r) = Returns profile /\ handlers profile = [].
Proof.
  destruct r as [nm em pic org img].
  destruct nm as [[|c1 s1]|], em as [[|c2 s2]|], pic as [[|c3 s3]|],
           org as [[|c4 s4]|], img as [[|c5 s5]|];
    (eexists; split; reflexivity).
Qed.

(** X6.  The buttons of the page, in document order: done, visit-website
    and log out when [isAuthenticated] is true; done and connect otherwise;
    each once, whatever [userInfo] is.  Clicking through them posts the
    open-external and the sign-out request in the signed-in layout and only
    the sign-in request in the signed-out layout. *)
Theorem buttons_of_each_layout :
  forall (t : string -> string) (IMAGES_BASE_URI : string)
         (p : AccountViewProps),
  exists tree : VNode,
    render t IMAGES_BASE_URI p = Returns tree /\
    handlers tree =
      (if isAuthenticated p
       then [Click_onDone; Click_handleVisitCloudWebsite;
             Click_handleLogoutClick]
       else [Click_onDone; Click_handleConnectClick]) /\
    offeredMessages p tree =
      (if isAuthenticated p
       then [mkMessage "openExternal" (Some (visitUrl (cloudApiUrl p)));
             mkMessage "rooCloudSignOut" None]
       else [mkMessage "rooCloudSignIn" None]).
Proof.
  intros t base [u [|] c].
  - assert (H : exists section,
               body t base (mkProps u true c) = Returns section /\
               handlers section =
                 [Click_handleVisitCloudWebsite; Click_handleLogoutClick]).
    { destruct u as [r|].
      - destruct (profileBlock_handlers t r) as [profile [E H]].
        exists (Fragment [profile; authenticatedActions t]).
        unfold body; cbn [isAuthenticated userInfo]. rewrite E.
        split; [reflexivity|]. cbn. now rewrite H.
      - eexists; split; reflexivity. }
    destruct H as [section [E H]].
    exists (page t section). unfold render. rewrite E.
    split; [reflexivity|].
    unfold offeredMessages. rewrite handlers_page, H.
    split; [reflexivity|].
    cbn [flat_map handler isAuthenticated].
    rewrite exec_handleVisitCloudWebsite, exec_handleLogoutClick.
    reflexivity.
  - eexists. split; [apply render_signed_out|].
    split; reflexivity.
Qed.

(* ===================================================================== *)
(** ** Histories of an instance *)
(* ===================================================================== *)

Section HistoryFacts.

Variable t : string -> string.
Variable IMAGES_BASE_URI : string.

(** A render adds nothing or one capture of logout-succeeded. *)
Lemma effects_rerender_any (p : AccountViewProps) (i : Instance) :
  exists l,
    effects (store (rerender t IMAGES_BASE_URI p i)) = effects (store i) ++ l /\
    (l = [] \/ l = [Capture ACCOUNT_LOGOUT_SUCCESS]).
Proof.
  rewrite store_rerender.
  destruct (Bool.eqb (isAuthenticated p) (lastDeps i)).
  - exists []. rewrite app_nil_r. auto.
  - rewrite exec_authEffect; cbn [effects].
    eexists; split; [reflexivity|].
    destruct (wasAuthenticatedRef (store i) && negb (isAuthenticated p)); auto.
Qed.

Lemma onDoneCalls_app (l l' : list Effect) :
  onDoneCalls (l ++ l') = onDoneCalls l + onDoneCalls l'.
Proof.
  induction l as [|x l IH]; cbn; [reflexivity|].
  destruct x; rewrite IH; lia.
Qed.

Lemma run_runFrom (p : AccountViewProps) (acts : list Action) :
  run t IMAGES_BASE_URI p acts =
  runFrom t IMAGES_BASE_URI (mount t IMAGES_BASE_URI p) acts.
Proof. reflexivity. Qed.

Lemma current_mount (p : AccountViewProps) :
  current (mount t IMAGES_BASE_URI p) = p.
Proof. reflexivity. Qed.

Lemma runFrom_cons (i : Instance) (a : Action) (acts : list Action) :
  runFrom t IMAGES_BASE_URI i (a :: acts) =
  runFrom t IMAGES_BASE_URI (step t IMAGES_BASE_URI i a) acts.
Proof. reflexivity. Qed.

(** The messages of a history, from any instance. *)
Lemma posted_runFrom (acts : list Action) (i : Instance) :
  posted (effects (store (runFrom t IMAGES_BASE_URI i acts))) =
  posted (effects (store i)) ++ clickMessages (current i) acts.
Proof.
  revert i; induction acts as [|a acts IH]; intros i.
  - cbn. now rewrite app_nil_r.
  - rewrite runFrom_cons.
    rewrite IH. destruct a as [p|h]; cbn [step clickMessages].
    + destruct (effects_rerender_any p i) as [l [-> [-> | ->]]];
        rewrite posted_app; cbn; now rewrite app_nil_r.
    + unfold click; cbn [store current].
      destruct h; cbn [handler].
      * rewrite exec_perform; cbn [effects]. rewrite posted_app; cbn.
        now rewrite app_nil_r.
      * rewrite exec_handleConnectClick; cbn [effects].
        rewrite posted_app, <- app_assoc. reflexivity.
      * rewrite exec_handleLogoutClick; cbn [effects].
        rewrite posted_app, <- app_assoc. reflexivity.
      * rewrite exec_handleVisitCloudWebsite; cbn [effects].
        rewrite posted_app, <- app_assoc. reflexivity.
Qed.

(** The captures of the two click events and the calls of [onDone], from
    any instance. *)
Lemma clicks_runFrom (acts : list Action) (i : Instance) :
  let e := effects (store i) in
  let e' := effects (store (runFrom t IMAGES_BASE_URI i acts)) in
  captured ACCOUNT_CONNECT_CLICKED e' =
    captured ACCOUNT_CONNECT_CLICKED e +
    clicks Click_handleConnectClick acts +
    clicks Click_handleVisitCloudWebsite acts /\
  captured ACCOUNT_LOGOUT_CLICKED e' =
    captured ACCOUNT_LOGOUT_CLICKED e + clicks Click_handleLogoutClick acts /\
  onDoneCalls e' = onDoneCalls e + clicks Click_onDone acts.
Proof.
  revert i; induction acts as [|a acts IH]; intros i.
  - cbn. lia.
  - rewrite runFrom_cons.
    cbn zeta in *. destruct (IH (step t IMAGES_BASE_URI i a)) as (-> & -> & ->).
    clear IH. destruct a as [p|h]; cbn [step clicks].
    + destruct (effects_rerender_any p i) as [l [-> [-> | ->]]];
        rewrite !captured_app, onDoneCalls_app; cbn; lia.
    + unfold click; cbn [store].
      destruct h; cbn [handler];
        rewrite ?exec_perform, ?exec_handleConnectClick,
                ?exec_handleLogoutClick, ?exec_handleVisitCloudWebsite;
        cbn [effects]; rewrite !captured_app, onDoneCalls_app; cbn; lia.
Qed.

Lemma clickMessages_wellFormed (acts : list Action) (p : AccountViewProps) :
  forallb wellFormed (clickMessages p acts) = true.
Proof.
  revert p; induction acts as [|[q|h] acts IH]; intros p; cbn [clickMessages].
  - reflexivity.
  - apply IH.
  - destruct h; cbn [forallb]; rewrite ?IH; try reflexivity.
    unfold visitUrl, defaultCloudUrl.
    destruct (cloudApiUrl p) as [[|c u]|]; reflexivity.
Qed.

End HistoryFacts.

(** X7.  Between two events the cell holds the [isAuthenticated] of the
    latest render, and so does the dependency [useEffect] remembers: this
    holds after any history of renders and clicks, also across renders on
    which the effect was not run. *)
Theorem cell_tracks_latest_render :
  forall (t : string -> string) (IMAGES_BASE_URI : string)
         (p : AccountViewProps) (acts : list Action),
    let i := run t IMAGES_BASE_URI p acts in
    wasAuthenticatedRef (store i) =
      last (observedAuth p acts) (isAuthenticated p) /\
    lastDeps i = last (observedAuth p acts) (isAuthenticated p) /\
    isAuthenticated (current i) =
      last (observedAuth p acts) (isAuthenticated p).
Proof.
  intros t base p acts i.
  destruct (run_consistent t base p acts) as (Hd & Hw & Hl & _).
  fold i in Hd, Hw, Hl. rewrite Hd, Hw, Hl. auto.
Qed.

(** X8.  Running the effect callback twice in a row is the same as running
    it once: the second run captures nothing and leaves the cell. *)
Theorem authEffect_idempotent :
  forall (p : AccountViewProps) (s : Store),
    exec (authEffect p) (exec (authEffect p) s) = exec (authEffect p) s.
Proof.
  intros p s. rewrite !exec_authEffect; cbn [wasAuthenticatedRef effects].
  destruct (isAuthenticated p); cbn; now rewrite app_nil_r.
Qed.

(** X9.  A render that changes only [userInfo] or [cloudApiUrl] leaves the
    store of the instance as it is, whatever the instance: the effect is
    keyed on [isAuthenticated] alone. *)
Theorem rerender_same_auth_keeps_store :
  forall (t : string -> string) (IMAGES_BASE_URI : string)
         (i : Instance) (p : AccountViewProps)
         (u' : option CloudUserInfo) (c' : option string),
    store (rerender t IMAGES_BASE_URI (mkProps u' (isAuthenticated p) c')
             (rerender t IMAGES_BASE_URI p i)) =
    store (rerender t IMAGES_BASE_URI p i).
Proof.
  intros t base i p u' c'.
  rewrite (store_rerender t base (mkProps u' (isAuthenticated p) c')).
  cbn [isAuthenticated lastDeps rerender].
  now rewrite eqb_reflx.
Qed.

(** X10.  The messages a history posts are those of its clicks, in order:
    one per click on connect, log out or visit-website, none for a click on
    done and none for a render.  The url of an open-external message is
    taken from the [cloudApiUrl] of the latest render before the click. *)
Theorem posted_messages_follow_clicks :
  forall (t : string -> string) (IMAGES_BASE_URI : string)
         (p : AccountViewProps) (acts : list Action),
    posted (effects (store (run t IMAGES_BASE_URI p acts))) =
      clickMessages p acts /\
    length (posted (effects (store (run t IMAGES_BASE_URI p acts)))) =
      clicks Click_handleConnectClick acts +
      clicks Click_handleLogoutClick acts +
      clicks Click_handleVisitCloudWebsite acts.
Proof.
  intros t base p acts.
  assert (E : posted (effects (store (run t base p acts))) =
              clickMessages p acts).
  { rewrite run_runFrom, posted_runFrom, store_mount, current_mount.
    reflexivity. }
  split; [exact E|]. rewrite E. clear E.
  revert p; induction acts as [|[q|h] acts IH]; intros p;
    cbn [clickMessages clicks].
  - reflexivity.
  - apply IH.
  - destruct h; cbn [length Handler_eqb]; rewrite IH; lia.
Qed.

(** X11.  Telemetry of the clicks over a history: connect-clicked is
    captured once per click on connect and once per click on visit-website
    (the two share the event), logout-clicked once per click on log out, and
    [onDone] is called once per click on done.  Renders add nothing to
    these. *)
Theorem click_telemetry_counts :
  forall (t : string -> string) (IMAGES_BASE_URI : string)
         (p : AccountViewProps) (acts : list Action),
    let e := effects (store (run t IMAGES_BASE_URI p acts)) in
    captured ACCOUNT_CONNECT_CLICKED e =
      clicks Click_handleConnectClick acts +
      clicks Click_handleVisitCloudWebsite acts /\
    captured ACCOUNT_LOGOUT_CLICKED e = clicks Click_handleLogoutClick acts /\
    onDoneCalls e = clicks Click_onDone acts.
Proof.
  intros t base p acts e. subst e.
  rewrite run_runFrom.
  destruct (clicks_runFrom t base acts (mount t base p)) as (H1 & H2 & H3).
  rewrite store_mount in H1, H2, H3. cbn in H1, H2, H3.
  auto.
Qed.

(** X12.  Every message an instance ever posts is one the host can act on:
    a sign-in or sign-out request without a url, or an open-external
    request whose url is a non-empty string.  No history posts an
    open-external request with an empty or missing url. *)
Theorem posted_messages_well_formed :
  forall (t : string -> string) (IMAGES_BASE_URI : string)
         (p : AccountViewProps) (acts : list Action),
    forallb wellFormed
      (posted (effects (store (run t IMAGES_BASE_URI p acts)))) = true.
Proof.
  intros t base p acts.
  rewrite run_runFrom, posted_runFrom, store_mount, current_mount.
  apply clickMessages_wellFormed.
Qed.

(** X13.  Signing out and signing in, end to end.  From an instance last
    rendered signed in, a click on log out followed by a render with
    [isAuthenticated = false] adds, in order, the capture of logout-clicked,
    the sign-out request and the capture of logout-succeeded.  From an
    instance last rendered signed out, a click on connect followed by a
    render with [isAuthenticated = true] adds the capture of connect-clicked
    and the sign-in request and nothing for the sign-in itself. *)
Theorem sign_out_and_sign_in_round :
  forall (t : string -> string) (IMAGES_BASE_URI : string)
         (p : AccountViewProps) (acts : list Action)
         (u u' : option CloudUserInfo) (c c' : option string),
    let signedIn :=
      run t IMAGES_BASE_URI p (acts ++ [Rerender (mkProps u true c)]) in
    let signedOut :=
      run t IMAGES_BASE_URI p (acts ++ [Rerender (mkProps u false c)]) in
    effects (store (rerender t IMAGES_BASE_URI (mkProps u' false c')
                      (click Click_handleLogoutClick signedIn))) =
      effects (store signedIn) ++
      [Capture ACCOUNT_LOGOUT_CLICKED;
       PostMessage (mkMessage "rooCloudSignOut" None);
       Capture ACCOUNT_LOGOUT_SUCCESS] /\
    effects (store (rerender t IMAGES_BASE_URI (mkProps u' true c')
                      (click Click_handleConnectClick signedOut))) =
      effects (store signedOut) ++
      [Capture ACCOUNT_CONNECT_CLICKED;
       PostMessage (mkMessage "rooCloudSignIn" None)].
Proof.
  intros t base p acts u u' c c' signedIn signedOut.
  split.
  - destruct (run_consistent t base p (acts ++ [Rerender (mkProps u true c)]))
      as (Hd & Hw & _ & _).
    fold signedIn in Hd, Hw.
    assert (Hc : current signedIn = mkProps u true c)
      by (unfold signedIn; now rewrite run_snoc).
    rewrite Hc in Hd, Hw; cbn [isAuthenticated] in Hd, Hw.
    rewrite store_rerender. unfold click at 1; cbn [lastDeps isAuthenticated].
    rewrite Hd; cbn [Bool.eqb].
    rewrite exec_authEffect. unfold click; cbn [store handler].
    rewrite exec_handleLogoutClick; cbn [effects wasAuthenticatedRef isAuthenticated].
    rewrite Hw; cbn. now rewrite <- app_assoc.
  - destruct (run_consistent t base p (acts ++ [Rerender (mkProps u false c)]))
      as (Hd & Hw & _ & _).
    fold signedOut in Hd, Hw.
    assert (Hc : current signedOut = mkProps u false c)
      by (unfold signedOut; now rewrite run_snoc).
    rewrite Hc in Hd, Hw; cbn [isAuthenticated] in Hd, Hw.
    rewrite store_rerender. unfold click at 1; cbn [lastDeps isAuthenticated].
    rewrite Hd; cbn [Bool.eqb].
    rewrite exec_authEffect. unfold click; cbn [store handler].
    rewrite exec_handleConnectClick; cbn [effects wasAuthenticatedRef isAuthenticated].
    cbn. rewrite andb_false_r. now rewrite app_nil_r.
Qed.

Lemma last_nonempty_default {A : Type} (y : A) (l : list A) (d d' : A) :
  last (y :: l) d = last (y :: l) d'.
Proof.
  revert y; induction l as [|z l IH]; intros y; [reflexivity|].
  change (last (z :: l) d = last (z :: l) d'). apply IH.
Qed.

Lemma announced_app (prev : option Effect) (l l' : list Effect) :
  announced prev (l ++ l') =
  announced prev l && announced (last (map Some l) prev) l'.
Proof.
  revert prev; induction l as [|x l IH]; intros prev; [reflexivity|].
  assert (E : last (map Some (x :: l)) prev = last (map Some l) (Some x)).
  { destruct l as [|y l]; [reflexivity|].
    change (last (Some y :: map Some l) prev =
            last (Some y :: map Some l) (Some x)).
    apply last_nonempty_default. }
  rewrite E. cbn [app announced].
  destruct x; rewrite IH; cbn; now rewrite ?andb_assoc.
Qed.

(** What one event adds to the trace. *)
Lemma effects_step (t : string -> string) (IMAGES_BASE_URI : string)
      (i : Instance) (a : Action) :
  exists l,
    effects (store (step t IMAGES_BASE_URI i a)) = effects (store i) ++ l /\
    length l <= 2 /\
    forall prev, announced prev l = true.
Proof.
  destruct a as [p|h]; cbn [step].
  - destruct (effects_rerender_any t IMAGES_BASE_URI p i) as [l [-> [-> | ->]]];
      eexists; (split; [reflexivity|]); cbn; auto.
  - unfold click; cbn [store].
    destruct h; cbn [handler];
      rewrite ?exec_perform, ?exec_handleConnectClick,
              ?exec_handleLogoutClick, ?exec_handleVisitCloudWebsite;
      cbn [effects]; eexists; (split; [reflexivity|]); cbn; auto.
Qed.

(** X14.  The trace only grows: every event, a render or a click, leaves
    the effects performed so far in place and appends at most two. *)
Theorem trace_is_append_only :
  forall (t : string -> string) (IMAGES_BASE_URI : string)
         (i : Instance) (a : Action),
  exists l : list Effect,
    effects (store (step t IMAGES_BASE_URI i a)) = effects (store i) ++ l /\
    length l <= 2.
Proof.
  intros t base i a.
  destruct (effects_step t base i a) as [l [E [H _]]].
  now exists l.
Qed.

(** X15.  Over any history, every posted message comes directly after the
    capture of its click event: a sign-in or open-external request after
    connect-clicked, a sign-out request after logout-clicked.  No message is
    posted without its telemetry, and nothing comes between the two. *)
Theorem telemetry_precedes_every_message :
  forall (t : string -> string) (IMAGES_BASE_URI : string)
         (p : AccountViewProps) (acts : list Action),
    announced None (effects (store (run t IMAGES_BASE_URI p acts))) = true.
Proof.
  intros t base p acts.
  induction acts as [|a acts IH] using rev_ind.
  - unfold run; cbn [fold_left]. now rewrite store_mount.
  - rewrite run_snoc.
    destruct (effects_step t base (run t base p acts) a) as [l [-> [_ H]]].
    now rewrite announced_app, IH, H.
Qed.
